(** * CommandInput: the command composer of dokodemo-claude

    A shallow embedding of [frontend/src/components/CommandInput.tsx].

    The component owns three [useState] cells (the draft [command], the
    [commandHistory] array and the [historyIndex] cursor).  Its event
    handlers close over the values of the current render and perform, in
    program order, a sequence of operations: state-setter calls, calls of
    the callbacks received as props, [preventDefault] and [focus].  A handler
    is therefore embedded as a function from the props and the rendered
    state to the list of operations it performs; the state of the next
    render is obtained by running each cell's queued updates in order. *)

From Stdlib Require Import List ZArith NArith Bool Lia String Ascii.
Import ListNotations.
Open Scope Z_scope.

(** ** JavaScript values used by the component *)

Module Js.

(** A JavaScript string is a sequence of UTF-16 code units. *)
Definition code_unit := N.
Definition jsstring := list code_unit.

(** A string literal of the source whose characters are all ASCII. *)
Definition lit (s : string) : jsstring :=
  map N_of_ascii (list_ascii_of_string s).

Fixpoint eqb (a b : jsstring) : bool :=
  match a, b with
  | [], [] => true
  | x :: a', y :: b' => N.eqb x y && eqb a' b'
  | _, _ => false
  end.

(** The code units stripped by [String.prototype.trim]: ECMAScript
    WhiteSpace (TAB, VT, FF, ZWNBSP and the Unicode space separators) and
    LineTerminator (LF, CR, LS, PS). *)
Definition isWhiteSpace (c : code_unit) : bool :=
  ((9 <=? c) && (c <=? 13)            (* TAB LF VT FF CR *)
   || (c =? 32)                       (* SP *)
   || (c =? 160)                      (* U+00A0 NBSP *)
   || (c =? 5760)                     (* U+1680 *)
   || ((8192 <=? c) && (c <=? 8202))  (* U+2000 .. U+200A *)
   || (c =? 8232) || (c =? 8233)      (* U+2028 LS, U+2029 PS *)
   || (c =? 8239)                     (* U+202F *)
   || (c =? 8287)                     (* U+205F *)
   || (c =? 12288)                    (* U+3000 *)
   || (c =? 65279))%N.                (* U+FEFF *)

Fixpoint trimStart (s : jsstring) : jsstring :=
  match s with
  | [] => []
  | c :: s' => if isWhiteSpace c then trimStart s' else s
  end.

Definition trimEnd (s : jsstring) : jsstring := rev (trimStart (rev s)).

Definition trim (s : jsstring) : jsstring := trimEnd (trimStart s).

(** ToBoolean on a string: only the empty string is falsy. *)
Definition truthy (s : jsstring) : bool :=
  match s with [] => false | _ :: _ => true end.

(** [a.length] *)
Definition length {A} (a : list A) : Z := Z.of_nat (List.length a).

(** [a[i]] for an integral [i]: [undefined] (here [None]) outside
    [0 .. a.length - 1], negative indices included. *)
Definition index {A} (a : list A) (i : Z) : option A :=
  if i <? 0 then None else nth_error a (Z.to_nat i).

End Js.

Abbreviation jsstring := Js.jsstring.

(** ** Props, state and events *)

(** [CommandInputProps].  [onSendCommand] is a required callback and appears
    only through the operation [OnSendCommand]; [onSendArrowKey] is optional
    and the field records whether the parent passed it. *)
Record CommandInputProps := mkProps {
  disabled : bool;
  onSendArrowKey : bool
}.

(** The three [useState] cells as one render sees them. *)
Record State := mkState {
  command : jsstring;
  commandHistory : list jsstring;
  historyIndex : Z
}.

(** [useState(''), useState([]), useState(-1)] *)
Definition initialState : State :=
  {| command := []; commandHistory := []; historyIndex := -1 |}.

Inductive Direction := Up | Down | Left | Right.

(** The fields of [React.KeyboardEvent] the handler reads. *)
Record KeyboardEvent := mkKey {
  key : jsstring;
  ctrlKey : bool;
  metaKey : bool
}.

(** What a handler or an effect does, one constructor per kind of call in the
    source.  [SetCommandHistory c] is the functional update
    [setCommandHistory(prev => [...prev, c])], the only way the history is
    ever set.  [SetCommand] carries a JavaScript value: a string, or
    [undefined] ([None]) when it comes from an array read out of range. *)
Inductive Op :=
| PreventDefault
| SetCommand (v : option jsstring)
| SetCommandHistory (c : jsstring)
| SetHistoryIndex (i : Z)
| OnSendCommand (c : jsstring)
| OnSendArrowKey (d : Direction)
| Focus.

(** ** The handlers *)

Definition CR : jsstring := [13%N].
Definition Enter : jsstring := Js.lit "Enter".
Definition ArrowUp : jsstring := Js.lit "ArrowUp".
Definition ArrowDown : jsstring := Js.lit "ArrowDown".

Definition sendCommand (p : CommandInputProps) (s : State) : list Op :=
  if disabled p then []
  else if Js.truthy (Js.trim (command s)) then
    [ SetCommandHistory (command s);
      SetHistoryIndex (-1);
      OnSendCommand (command s);
      SetCommand (Some []) ]
  else
    [ OnSendCommand CR ].

Definition handleSubmit (p : CommandInputProps) (s : State) : list Op :=
  PreventDefault :: sendCommand p s.

Definition handleKeyDown (p : CommandInputProps) (s : State)
                         (e : KeyboardEvent) : list Op :=
  if (ctrlKey e || metaKey e) && Js.eqb (key e) Enter then
    PreventDefault :: sendCommand p s
  else if Js.eqb (key e) ArrowUp then
    PreventDefault ::
    (if Js.length (commandHistory s) >? 0 then
       let newIndex := historyIndex s + 1 in
       if newIndex <? Js.length (commandHistory s) then
         [ SetHistoryIndex newIndex;
           SetCommand (Js.index (commandHistory s)
                         (Js.length (commandHistory s) - 1 - newIndex)) ]
       else []
     else [])
  else if Js.eqb (key e) ArrowDown then
    PreventDefault ::
    (if historyIndex s >? 0 then
       let newIndex := historyIndex s - 1 in
       [ SetHistoryIndex newIndex;
         SetCommand (Js.index (commandHistory s)
                       (Js.length (commandHistory s) - 1 - newIndex)) ]
     else if historyIndex s =? 0 then
       [ SetHistoryIndex (-1); SetCommand (Some []) ]
     else [])
  else [].

(** [onChange={(e) => setCommand(e.target.value)}] *)
Definition onChange (v : jsstring) : list Op := [ SetCommand (Some v) ].

(** The effect [useEffect(() => { if (!disabled && inputRef.current)
    inputRef.current.focus() }, [disabled])].  [attached] says whether
    [inputRef.current] is set. *)
Definition focusEffect (p : CommandInputProps) (attached : bool) : list Op :=
  if negb (disabled p) && attached then [ Focus ] else [].

(** The effect runs after the first render ([prev = None]) and after a render
    whose dependency [disabled] differs from the previous one. *)
Definition useEffect (prev : option bool) (p : CommandInputProps)
                     (attached : bool) : list Op :=
  match prev with
  | None => focusEffect p attached
  | Some d => if Bool.eqb d (disabled p) then [] else focusEffect p attached
  end.

(** ** The rendered controls *)

(** A rendered [<button>]: its [disabled] attribute and what activating it
    does. *)
Record Button := mkButton {
  btn_disabled : bool;
  btn_activate : list Op
}.

(** The four direction buttons exist only under [{onSendArrowKey && ...}];
    each has [onClick={() => onSendArrowKey(d)}] and [disabled={disabled}]. *)
Definition arrowButton (p : CommandInputProps) (d : Direction) : option Button :=
  if onSendArrowKey p then
    Some {| btn_disabled := disabled p; btn_activate := [ OnSendArrowKey d ] |}
  else None.

(** [<button type="submit" disabled={disabled}>]: activating it submits the
    enclosing form, whose [onSubmit] is [handleSubmit]. *)
Definition submitButton (p : CommandInputProps) (s : State) : Button :=
  {| btn_disabled := disabled p; btn_activate := handleSubmit p s |}.

(** A click on a button whose [disabled] attribute is set is dropped: neither
    [onClick] nor the form submission happens. *)
Definition click (b : option Button) : list Op :=
  match b with
  | Some b => if btn_disabled b then [] else btn_activate b
  | None => []
  end.

(** ** Interactions and the transition they cause *)

Inductive Interaction :=
| KeyDown (e : KeyboardEvent)      (* keydown delivered to the textarea *)
| Change (v : jsstring)            (* the textarea's value edited to [v] *)
| FormSubmit                       (* submit event delivered to the form *)
| ClickArrow (d : Direction)       (* click on a direction button *)
| ClickSubmit.                     (* click on the submit button *)

Definition handle (p : CommandInputProps) (s : State)
                  (i : Interaction) : list Op :=
  match i with
  | KeyDown e => handleKeyDown p s e
  | Change v => onChange v
  | FormSubmit => handleSubmit p s
  | ClickArrow d => click (arrowButton p d)
  | ClickSubmit => click (Some (submitButton p s))
  end.

(** Everything an interaction causes: the handler, then the render it
    schedules, rendered with the same props, and that render's effect. *)
Definition interaction_trace (p : CommandInputProps) (s : State)
                             (i : Interaction) : list Op :=
  handle p s i ++ useEffect (Some (disabled p)) p true.

(** Each cell runs its own queue of updates, in the order they were
    enqueued. *)
Definition next_command (cur : option jsstring) (ops : list Op) : option jsstring :=
  fold_left (fun acc o => match o with SetCommand v => v | _ => acc end) ops cur.

Definition next_commandHistory (cur : list jsstring) (ops : list Op) : list jsstring :=
  fold_left (fun acc o => match o with SetCommandHistory c => acc ++ [c] | _ => acc end)
            ops cur.

Definition next_historyIndex (cur : Z) (ops : list Op) : Z :=
  fold_left (fun acc o => match o with SetHistoryIndex i => i | _ => acc end) ops cur.

(** The state of the next render.  There is none when the draft has become
    [undefined]: the render evaluates [command.trim()] for the submit label
    and throws. *)
Definition commit (s : State) (ops : list Op) : option State :=
  match next_command (Some (command s)) ops with
  | Some c =>
      Some {| command := c;
              commandHistory := next_commandHistory (commandHistory s) ops;
              historyIndex := next_historyIndex (historyIndex s) ops |}
  | None => None
  end.

Definition step (p : CommandInputProps) (s : State) (i : Interaction) : option State :=
  commit s (handle p s i).

(** A sequence of interactions under fixed props. *)
Fixpoint run (p : CommandInputProps) (s : State) (ins : list Interaction) : option State :=
  match ins with
  | [] => Some s
  | i :: ins' =>
      match step p s i with
      | Some s' => run p s' ins'
      | None => None
      end
  end.

(** States the component can be in: the props may change between any two
    interactions. *)
Inductive reachable : State -> Prop :=
| reachable_init : reachable initialState
| reachable_step p s i s' :
    reachable s -> step p s i = Some s' -> reachable s'.

(** The cursor invariant of the data model. *)
Definition cursor_ok (s : State) : Prop :=
  historyIndex s = -1 \/
  0 <= historyIndex s < Js.length (commandHistory s).

(** ** Observations on a sequence of operations *)

(** The arguments of the calls of [onSendCommand], in order. *)
Fixpoint sent (ops : list Op) : list jsstring :=
  match ops with
  | [] => []
  | OnSendCommand c :: ops' => c :: sent ops'
  | _ :: ops' => sent ops'
  end.

(** Calls observable outside the component: a callback or a focus request. *)
Definition outward (o : Op) : bool :=
  match o with
  | OnSendCommand _ | OnSendArrowKey _ | Focus => true
  | _ => false
  end.

Definition upKey (ctrl meta : bool) : KeyboardEvent :=
  {| key := ArrowUp; ctrlKey := ctrl; metaKey := meta |}.
Definition downKey (ctrl meta : bool) : KeyboardEvent :=
  {| key := ArrowDown; ctrlKey := ctrl; metaKey := meta |}.
Definition enterKey (ctrl meta : bool) : KeyboardEvent :=
  {| key := Enter; ctrlKey := ctrl; metaKey := meta |}.

Definition enabledProps : CommandInputProps :=
  {| disabled := false; onSendArrowKey := true |}.
Definition disabledProps : CommandInputProps :=
  {| disabled := true; onSendArrowKey := true |}.

(** Concrete drafts and states used in the examples. *)
Definition str_a : jsstring := Js.lit "a".
Definition str_b : jsstring := Js.lit "b".
Definition str_c : jsstring := Js.lit "c".
Definition str_ax : jsstring := Js.lit "ax".

(** The draft ["a"] typed into a fresh component. *)
Definition typed_a : State :=
  {| command := str_a; commandHistory := []; historyIndex := -1 |}.

(** ["a"] was submitted and nothing is typed. *)
Definition after_a : State :=
  {| command := []; commandHistory := [str_a]; historyIndex := -1 |}.

(** ["a"] was submitted and one Up has recalled it. *)
Definition browsing_a : State :=
  {| command := str_a; commandHistory := [str_a]; historyIndex := 0 |}.

(** ["a"] then ["b"] were submitted; one Up shows ["b"], a second ["a"]. *)
Definition newest_of_ab : State :=
  {| command := str_b; commandHistory := [str_a; str_b]; historyIndex := 0 |}.
Definition oldest_of_ab : State :=
  {| command := str_a; commandHistory := [str_a; str_b]; historyIndex := 1 |}.

(** While browsing ["a"], the draft was edited to ["ax"]. *)
Definition edited_ax : State :=
  {| command := str_ax; commandHistory := [str_a]; historyIndex := 0 |}.

(** ["a"], ["b"], ["c"] typed and submitted in order. *)
Definition submit_abc : list Interaction :=
  [ Change str_a; FormSubmit; Change str_b; FormSubmit; Change str_c; FormSubmit ].

Definition pressUp : Interaction := KeyDown (upKey false false).
Definition pressDown : Interaction := KeyDown (downKey false false).

(** The interactions that reach [sendCommand]: a submit event on the form, a
    click on the submit button, and Enter with Ctrl or Meta held. *)
Inductive submit_trigger : Interaction -> Prop :=
| trigger_form : submit_trigger FormSubmit
| trigger_button : submit_trigger ClickSubmit
| trigger_chord ctrl meta :
    ctrl || meta = true -> submit_trigger (KeyDown (enterKey ctrl meta)).

(** The effect of submitting the draft of [s] through [i]: one call of
    [onSendCommand] with the draft as it is, the draft appended to the
    history, the cursor at -1 and the draft empty in the next state. *)
Definition submit_effect (p : CommandInputProps) (s : State) (i : Interaction) : Prop :=
  sent (handle p s i) = [ command s ] /\
  step p s i = Some {| command := [];
                       commandHistory := commandHistory s ++ [ command s ];
                       historyIndex := -1 |}.

(** The effect of a bare Enter through [i]: one call of [onSendCommand] with
    a carriage return and the state untouched. *)
Definition bare_enter_effect (p : CommandInputProps) (s : State) (i : Interaction) : Prop :=
  sent (handle p s i) = [ CR ] /\ step p s i = Some s.

(** The label of the submit button, [{command.trim() ? L : 'Enter'}], where
    [L] is the two-character word for "send" (U+9001 U+4FE1). *)
Definition label_send : jsstring := [ 36865%N; 20449%N ].

Definition submitLabel (s : State) : jsstring :=
  if Js.truthy (Js.trim (command s)) then label_send else Js.lit "Enter".

(** The effects of a sequence of renders: the first one after mounting
    ([prev = None]), each later one compared with the [disabled] of the render
    before it. *)
Fixpoint renderEffects (prev : option bool) (renders : list CommandInputProps)
                       (attached : bool) : list Op :=
  match renders with
  | [] => []
  | p :: rest =>
      useEffect prev p attached ++ renderEffects (Some (disabled p)) rest attached
  end.

(** ["a"] was submitted and ["b"] is typed but not submitted. *)
Definition typed_after_a : State :=
  {| command := str_b; commandHistory := [ str_a ]; historyIndex := -1 |}.

(** ["a"], ["b"], ["c"] submitted, nothing typed. *)
Definition after_abc : State :=
  {| command := []; commandHistory := [ str_a; str_b; str_c ]; historyIndex := -1 |}.

(** ** Facts about the JavaScript primitives *)

Section JsFacts.

Lemma length_nonneg {A} (a : list A) : 0 <= Js.length a.
Proof. unfold Js.length; lia. Qed.

Lemma length_pos {A} (a : list A) : a <> [] -> 0 < Js.length a.
Proof. destruct a; [congruence | unfold Js.length; simpl; lia]. Qed.

Lemma length_app1 {A} (a : list A) (x : A) :
  Js.length (a ++ [x]) = Js.length a + 1.
Proof. unfold Js.length. rewrite length_app. simpl. lia. Qed.

Lemma index_in_range {A} (a : list A) (i : Z) :
  0 <= i < Js.length a -> exists x, Js.index a i = Some x.
Proof.
  unfold Js.index, Js.length. intros Hi.
  destruct (Z.ltb_spec i 0) as [Hneg | _]; [lia |].
  destruct (nth_error a (Z.to_nat i)) as [x |] eqn:E; [now exists x |].
  apply nth_error_None in E. lia.
Qed.

Lemma index_out_of_range {A} (a : list A) (i : Z) :
  i < 0 \/ Js.length a <= i -> Js.index a i = None.
Proof.
  unfold Js.index, Js.length. intros Hi.
  destruct (Z.ltb_spec i 0) as [Hneg | Hpos]; [reflexivity |].
  apply nth_error_None. lia.
Qed.

Lemma trimStart_blank (s : jsstring) :
  Js.trimStart s = [] <-> forallb Js.isWhiteSpace s = true.
Proof.
  induction s as [| c s IH]; simpl; [tauto |].
  destruct (Js.isWhiteSpace c); simpl; [exact IH |].
  split; discriminate.
Qed.

Lemma trimStart_suffix (s : jsstring) :
  exists pre, s = pre ++ Js.trimStart s /\ forallb Js.isWhiteSpace pre = true.
Proof.
  induction s as [| c s [pre [E W]]]; simpl.
  - now exists [].
  - destruct (Js.isWhiteSpace c) eqn:Hc.
    + exists (c :: pre). simpl. rewrite Hc, W. split; [f_equal; exact E | reflexivity].
    + now exists [].
Qed.

Lemma forallb_reverse {A} (f : A -> bool) (l : list A) :
  forallb f (rev l) = forallb f l.
Proof.
  induction l as [| x l IH]; simpl; [reflexivity |].
  rewrite forallb_app, IH. simpl. rewrite andb_true_r. apply andb_comm.
Qed.

(** [trim] yields the empty string exactly on the strings made of white
    space only, the empty string among them. *)
Lemma trim_blank (s : jsstring) :
  Js.trim s = [] <-> forallb Js.isWhiteSpace s = true.
Proof.
  unfold Js.trim, Js.trimEnd. split.
  - intros H.
    assert (R : Js.trimStart (rev (Js.trimStart s)) = []).
    { apply (f_equal (@rev _)) in H. rewrite rev_involutive in H. exact H. }
    apply trimStart_blank in R. rewrite forallb_reverse in R.
    destruct (trimStart_suffix s) as [pre [E W]].
    rewrite E, forallb_app, W, R. reflexivity.
  - intros H. apply trimStart_blank in H. rewrite H. reflexivity.
Qed.

Lemma truthy_nonempty (s : jsstring) : Js.truthy s = true <-> s <> [].
Proof. destruct s; simpl; split; congruence. Qed.

Lemma truthy_empty (s : jsstring) : Js.truthy s = false <-> s = [].
Proof. destruct s; simpl; split; congruence. Qed.

End JsFacts.

(** ** Equations of the handlers, branch by branch *)

Section HandlerEquations.

Variables (p : CommandInputProps) (s : State).

Lemma sendCommand_disabled :
  disabled p = true -> sendCommand p s = [].
Proof. intros D. unfold sendCommand. now rewrite D. Qed.

Lemma sendCommand_draft :
  disabled p = false -> Js.trim (command s) <> [] ->
  sendCommand p s =
    [ SetCommandHistory (command s); SetHistoryIndex (-1);
      OnSendCommand (command s); SetCommand (Some []) ].
Proof.
  intros D T. unfold sendCommand. rewrite D.
  apply truthy_nonempty in T. now rewrite T.
Qed.

Lemma sendCommand_blank :
  disabled p = false -> Js.trim (command s) = [] ->
  sendCommand p s = [ OnSendCommand CR ].
Proof.
  intros D T. unfold sendCommand. rewrite D.
  apply truthy_empty in T. now rewrite T.
Qed.

Lemma handleKeyDown_chord (ctrl meta : bool) :
  ctrl || meta = true ->
  handleKeyDown p s (enterKey ctrl meta) = PreventDefault :: sendCommand p s.
Proof. intros M. unfold handleKeyDown, enterKey. simpl. now rewrite M. Qed.

Lemma handleKeyDown_up (e : KeyboardEvent) :
  key e = ArrowUp ->
  handleKeyDown p s e =
    PreventDefault ::
    (if Js.length (commandHistory s) >? 0 then
       if historyIndex s + 1 <? Js.length (commandHistory s) then
         [ SetHistoryIndex (historyIndex s + 1);
           SetCommand (Js.index (commandHistory s)
                         (Js.length (commandHistory s) - 1 - (historyIndex s + 1))) ]
       else []
     else []).
Proof.
  intros K. unfold handleKeyDown. rewrite K.
  change (Js.eqb ArrowUp Enter) with false.
  change (Js.eqb ArrowUp ArrowUp) with true.
  now rewrite andb_false_r.
Qed.

Lemma handleKeyDown_down (e : KeyboardEvent) :
  key e = ArrowDown ->
  handleKeyDown p s e =
    PreventDefault ::
    (if historyIndex s >? 0 then
       [ SetHistoryIndex (historyIndex s - 1);
         SetCommand (Js.index (commandHistory s)
                       (Js.length (commandHistory s) - 1 - (historyIndex s - 1))) ]
     else if historyIndex s =? 0 then
       [ SetHistoryIndex (-1); SetCommand (Some []) ]
     else []).
Proof.
  intros K. unfold handleKeyDown. rewrite K.
  change (Js.eqb ArrowDown Enter) with false.
  change (Js.eqb ArrowDown ArrowUp) with false.
  change (Js.eqb ArrowDown ArrowDown) with true.
  now rewrite andb_false_r.
Qed.

(** An Up that moves. *)
Lemma handleKeyDown_up_moves (e : KeyboardEvent) :
  key e = ArrowUp -> commandHistory s <> [] ->
  historyIndex s + 1 < Js.length (commandHistory s) ->
  handleKeyDown p s e =
    [ PreventDefault;
      SetHistoryIndex (historyIndex s + 1);
      SetCommand (Js.index (commandHistory s)
                    (Js.length (commandHistory s) - 1 - (historyIndex s + 1))) ].
Proof.
  intros K NE LT. rewrite (handleKeyDown_up e K).
  apply length_pos in NE.
  destruct (Z.gtb_spec (Js.length (commandHistory s)) 0); [| lia].
  destruct (Z.ltb_spec (historyIndex s + 1) (Js.length (commandHistory s))); [| lia].
  reflexivity.
Qed.

(** An Up at or beyond the oldest entry. *)
Lemma handleKeyDown_up_stays (e : KeyboardEvent) :
  key e = ArrowUp ->
  Js.length (commandHistory s) <= historyIndex s + 1 ->
  handleKeyDown p s e = [ PreventDefault ].
Proof.
  intros K GE. rewrite (handleKeyDown_up e K).
  destruct (Js.length (commandHistory s) >? 0); [| reflexivity].
  destruct (Z.ltb_spec (historyIndex s + 1) (Js.length (commandHistory s))); [lia |].
  reflexivity.
Qed.

Lemma handleKeyDown_down_moves (e : KeyboardEvent) :
  key e = ArrowDown -> historyIndex s > 0 ->
  handleKeyDown p s e =
    [ PreventDefault;
      SetHistoryIndex (historyIndex s - 1);
      SetCommand (Js.index (commandHistory s)
                    (Js.length (commandHistory s) - 1 - (historyIndex s - 1))) ].
Proof.
  intros K GT. rewrite (handleKeyDown_down e K).
  destruct (Z.gtb_spec (historyIndex s) 0); [reflexivity | lia].
Qed.

Lemma handleKeyDown_down_leaves (e : KeyboardEvent) :
  key e = ArrowDown -> historyIndex s = 0 ->
  handleKeyDown p s e =
    [ PreventDefault; SetHistoryIndex (-1); SetCommand (Some []) ].
Proof.
  intros K Z0. rewrite (handleKeyDown_down e K), Z0. reflexivity.
Qed.

Lemma handleKeyDown_down_stays (e : KeyboardEvent) :
  key e = ArrowDown -> historyIndex s < 0 ->
  handleKeyDown p s e = [ PreventDefault ].
Proof.
  intros K LT. rewrite (handleKeyDown_down e K).
  destruct (Z.gtb_spec (historyIndex s) 0); [lia |].
  destruct (Z.eqb_spec (historyIndex s) 0); [lia | reflexivity].
Qed.

(** The next state after a navigation step that sets cursor and draft. *)
Lemma commit_navigation (i : Z) (v : option jsstring) :
  commit s [ PreventDefault; SetHistoryIndex i; SetCommand v ] =
  option_map (fun d => {| command := d;
                          commandHistory := commandHistory s;
                          historyIndex := i |}) v.
Proof. destruct v; reflexivity. Qed.

Lemma commit_nothing : commit s [ PreventDefault ] = Some s.
Proof. destruct s; reflexivity. Qed.

Lemma commit_empty : commit s [] = Some s.
Proof. destruct s; reflexivity. Qed.

(** Every submit trigger runs [sendCommand], after [preventDefault], unless
    it is a click on the disabled submit button. *)
Lemma handle_trigger (i : Interaction) :
  submit_trigger i -> disabled p = false ->
  handle p s i = PreventDefault :: sendCommand p s.
Proof.
  intros [| | ctrl meta M] D; simpl.
  - reflexivity.
  - now rewrite D.
  - now apply handleKeyDown_chord.
Qed.

End HandlerEquations.

(** ** History navigation *)

(** C2.  With a non-empty History, an Up key press at Cursor [c] sets the
    Cursor to [c+1] and the Draft to [History[length - 1 - (c+1)]] whenever
    [c+1 < length]: these are the two updates the handler enqueues, and the
    next state carries them (the read is a JavaScript array read; from
    Cursor [-1] on it hits an entry).  When [c+1 = length] the press changes
    nothing.  After submitting "a", "b", "c", three Up presses show "c", "b",
    "a" and a fourth leaves "a". *)
Theorem C2_up_walks_history :
  (forall (p : CommandInputProps) (s : State) (e : KeyboardEvent),
      key e = ArrowUp -> commandHistory s <> [] ->
      let c := historyIndex s in
      let n := Js.length (commandHistory s) in
      (c + 1 < n ->
         handleKeyDown p s e =
           [ PreventDefault; SetHistoryIndex (c + 1);
             SetCommand (Js.index (commandHistory s) (n - 1 - (c + 1))) ] /\
         step p s (KeyDown e) =
           option_map (fun d => {| command := d;
                                   commandHistory := commandHistory s;
                                   historyIndex := c + 1 |})
                      (Js.index (commandHistory s) (n - 1 - (c + 1))) /\
         (-1 <= c -> exists d,
             Js.index (commandHistory s) (n - 1 - (c + 1)) = Some d /\
             step p s (KeyDown e) =
               Some {| command := d;
                       commandHistory := commandHistory s;
                       historyIndex := c + 1 |})) /\
      (c + 1 = n -> step p s (KeyDown e) = Some s)) /\
  run enabledProps initialState submit_abc =
    Some {| command := [];
            commandHistory := [ str_a; str_b; str_c ];
            historyIndex := -1 |} /\
  option_map command
    (run enabledProps initialState (submit_abc ++ [ pressUp ])) = Some str_c /\
  option_map command
    (run enabledProps initialState (submit_abc ++ [ pressUp; pressUp ])) = Some str_b /\
  option_map command
    (run enabledProps initialState (submit_abc ++ [ pressUp; pressUp; pressUp ]))
    = Some str_a /\
  option_map command
    (run enabledProps initialState
         (submit_abc ++ [ pressUp; pressUp; pressUp; pressUp ])) = Some str_a.
Proof.
  split; [| repeat split; reflexivity].
  intros p s e K NE c n. subst c n. split.
  - intros LT.
    pose proof (handleKeyDown_up_moves p s e K NE LT) as E.
    split; [exact E |].
    assert (S : step p s (KeyDown e) =
                option_map (fun d => {| command := d;
                                        commandHistory := commandHistory s;
                                        historyIndex := historyIndex s + 1 |})
                  (Js.index (commandHistory s)
                     (Js.length (commandHistory s) - 1 - (historyIndex s + 1)))).
    { unfold step. simpl handle. rewrite E. apply commit_navigation. }
    split; [exact S |].
    intros LO.
    destruct (index_in_range (commandHistory s)
                (Js.length (commandHistory s) - 1 - (historyIndex s + 1)))
      as [d Hd]; [lia |].
    exists d. split; [exact Hd |]. rewrite S, Hd. reflexivity.
  - intros EQ. unfold step. simpl handle.
    rewrite (handleKeyDown_up_stays p s e K) by lia.
    apply commit_nothing.
Qed.

(** The general part of C2 at the state reached by submitting "a". *)
Lemma C2_up_walks_history_witness :
  key (upKey false false) = ArrowUp /\
  commandHistory after_a <> [] /\
  historyIndex after_a + 1 < Js.length (commandHistory after_a) /\
  step enabledProps after_a pressUp = Some browsing_a /\
  historyIndex browsing_a + 1 = Js.length (commandHistory browsing_a) /\
  step enabledProps browsing_a pressUp = Some browsing_a.
Proof.
  split; [reflexivity |]. split; [discriminate |]. split; [reflexivity |].
  destruct (proj1 C2_up_walks_history enabledProps after_a (upKey false false)
              eq_refl ltac:(discriminate)) as [Hmove _].
  destruct (Hmove eq_refl) as [_ [Hstep _]].
  split; [exact Hstep |]. split; [reflexivity |].
  destruct (proj1 C2_up_walks_history enabledProps browsing_a (upKey false false)
              eq_refl ltac:(discriminate)) as [_ Hstay].
  exact (Hstay eq_refl).
Defined.

(** C3.  A Down key press at Cursor [c > 0] sets the Cursor to [c-1] and the
    Draft to [History[length - 1 - (c-1)]] (an entry whenever [c] is within
    the History); at Cursor 0 it sets the Cursor to -1 and empties the Draft;
    at Cursor -1 it changes nothing.  Pressing Down from the oldest of "a",
    "b", "c" shows "b", "c", then the empty Draft at Cursor -1, where a
    further Down changes nothing. *)
Theorem C3_down_walks_back :
  (forall (p : CommandInputProps) (s : State) (e : KeyboardEvent),
      key e = ArrowDown ->
      let c := historyIndex s in
      let n := Js.length (commandHistory s) in
      (c > 0 ->
         handleKeyDown p s e =
           [ PreventDefault; SetHistoryIndex (c - 1);
             SetCommand (Js.index (commandHistory s) (n - 1 - (c - 1))) ] /\
         step p s (KeyDown e) =
           option_map (fun d => {| command := d;
                                   commandHistory := commandHistory s;
                                   historyIndex := c - 1 |})
                      (Js.index (commandHistory s) (n - 1 - (c - 1))) /\
         (c < n -> exists d,
             Js.index (commandHistory s) (n - 1 - (c - 1)) = Some d /\
             step p s (KeyDown e) =
               Some {| command := d;
                       commandHistory := commandHistory s;
                       historyIndex := c - 1 |})) /\
      (c = 0 ->
         step p s (KeyDown e) =
           Some {| command := [];
                   commandHistory := commandHistory s;
                   historyIndex := -1 |}) /\
      (c = -1 -> step p s (KeyDown e) = Some s)) /\
  (let oldest := submit_abc ++ [ pressUp; pressUp; pressUp ] in
   run enabledProps initialState (oldest ++ [ pressDown ]) =
     Some {| command := str_b;
             commandHistory := [ str_a; str_b; str_c ]; historyIndex := 1 |} /\
   run enabledProps initialState (oldest ++ [ pressDown; pressDown ]) =
     Some {| command := str_c;
             commandHistory := [ str_a; str_b; str_c ]; historyIndex := 0 |} /\
   run enabledProps initialState (oldest ++ [ pressDown; pressDown; pressDown ]) =
     Some {| command := [];
             commandHistory := [ str_a; str_b; str_c ]; historyIndex := -1 |} /\
   run enabledProps initialState
       (oldest ++ [ pressDown; pressDown; pressDown; pressDown ]) =
     Some {| command := [];
             commandHistory := [ str_a; str_b; str_c ]; historyIndex := -1 |}).
Proof.
  split; [| repeat split; reflexivity].
  intros p s e K c n. subst c n. split; [| split].
  - intros GT.
    pose proof (handleKeyDown_down_moves p s e K GT) as E.
    split; [exact E |].
    assert (S : step p s (KeyDown e) =
                option_map (fun d => {| command := d;
                                        commandHistory := commandHistory s;
                                        historyIndex := historyIndex s - 1 |})
                  (Js.index (commandHistory s)
                     (Js.length (commandHistory s) - 1 - (historyIndex s - 1)))).
    { unfold step. simpl handle. rewrite E. apply commit_navigation. }
    split; [exact S |].
    intros HI.
    destruct (index_in_range (commandHistory s)
                (Js.length (commandHistory s) - 1 - (historyIndex s - 1)))
      as [d Hd]; [lia |].
    exists d. split; [exact Hd |]. rewrite S, Hd. reflexivity.
  - intros Z0. unfold step. simpl handle.
    rewrite (handleKeyDown_down_leaves p s e K Z0).
    apply (commit_navigation s (-1) (Some [])).
  - intros M1. unfold step. simpl handle.
    rewrite (handleKeyDown_down_stays p s e K) by lia.
    apply commit_nothing.
Qed.

(** The general part of C3 at the state browsing the only entry "a". *)
Lemma C3_down_walks_back_witness :
  key (downKey false false) = ArrowDown /\
  (historyIndex oldest_of_ab > 0 /\
   step enabledProps oldest_of_ab pressDown = Some newest_of_ab) /\
  (historyIndex browsing_a = 0 /\
   step enabledProps browsing_a pressDown = Some after_a) /\
  (historyIndex after_a = -1 /\
   step enabledProps after_a pressDown = Some after_a).
Proof.
  pose proof (proj1 C3_down_walks_back enabledProps) as H.
  split; [reflexivity |]. split; [| split]; (split; [reflexivity |]).
  - destruct (H oldest_of_ab (downKey false false) eq_refl) as [Hmove _].
    destruct (Hmove eq_refl) as [_ [Hstep _]]. exact Hstep.
  - destruct (H browsing_a (downKey false false) eq_refl) as [_ [Hleave _]].
    exact (Hleave eq_refl).
  - destruct (H after_a (downKey false false) eq_refl) as [_ [_ Hstay]].
    exact (Hstay eq_refl).
Defined.

(** ** Submission *)

Section Submission.

Variables (p : CommandInputProps) (s : State).
Hypothesis enabled : disabled p = false.

Lemma submit_draft (i : Interaction) :
  submit_trigger i -> Js.trim (command s) <> [] -> submit_effect p s i.
Proof.
  intros T NB. unfold submit_effect, step.
  rewrite (handle_trigger p s i T enabled), (sendCommand_draft p s enabled NB).
  split; reflexivity.
Qed.

Lemma submit_blank (i : Interaction) :
  submit_trigger i -> Js.trim (command s) = [] -> bare_enter_effect p s i.
Proof.
  intros T B. unfold bare_enter_effect, step.
  rewrite (handle_trigger p s i T enabled), (sendCommand_blank p s enabled B).
  split; [reflexivity |]. destruct s; reflexivity.
Qed.

End Submission.

(** C1, as stated, fails while the component is disabled: the draft "a" is
    not blank, yet a submit event neither calls [onSendCommand] nor touches
    the state. *)
Lemma C1_disabled_submit_counterexample :
  disabled disabledProps = true /\
  submit_trigger FormSubmit /\
  Js.trim (command typed_a) <> [] /\
  sent (handle disabledProps typed_a FormSubmit) = [] /\
  step disabledProps typed_a FormSubmit = Some typed_a /\
  ~ submit_effect disabledProps typed_a FormSubmit.
Proof.
  split; [reflexivity |]. split; [constructor |]. split; [discriminate |].
  split; [reflexivity |]. split; [reflexivity |].
  intros [Hsent _]. discriminate Hsent.
Qed.

(** C1, amended: while the component is not disabled, submitting a draft
    whose trim is non-empty enqueues the append of the untrimmed draft to the
    History and the reset of the Cursor to -1, calls [onSendCommand] exactly
    once with the untrimmed draft, and enqueues the emptying of the Draft; the
    next state has the draft appended, Cursor -1 and an empty Draft.  This
    holds for every way of submitting. *)
Theorem C1_submit_draft (p : CommandInputProps) (s : State) :
  disabled p = false -> Js.trim (command s) <> [] ->
  sendCommand p s =
    [ SetCommandHistory (command s); SetHistoryIndex (-1);
      OnSendCommand (command s); SetCommand (Some []) ] /\
  forall i, submit_trigger i -> submit_effect p s i.
Proof.
  intros D NB. split.
  - now apply sendCommand_draft.
  - intros i T. now apply submit_draft.
Qed.

Lemma C1_submit_draft_witness :
  disabled enabledProps = false /\
  Js.trim (command typed_a) <> [] /\
  submit_effect enabledProps typed_a FormSubmit /\
  step enabledProps typed_a ClickSubmit = Some after_a.
Proof.
  split; [reflexivity |]. split; [discriminate |].
  destruct (C1_submit_draft enabledProps typed_a eq_refl ltac:(discriminate))
    as [_ H].
  split; [exact (H FormSubmit trigger_form) |].
  exact (proj2 (H ClickSubmit trigger_button)).
Defined.

(** C4, as stated, fails while the component is disabled: with an empty draft
    a submit event does not call [onSendCommand] at all. *)
Lemma C4_disabled_blank_counterexample :
  disabled disabledProps = true /\
  submit_trigger FormSubmit /\
  Js.trim (command initialState) = [] /\
  sent (handle disabledProps initialState FormSubmit) = [] /\
  ~ bare_enter_effect disabledProps initialState FormSubmit.
Proof.
  split; [reflexivity |]. split; [constructor |]. split; [reflexivity |].
  split; [reflexivity |].
  intros [Hsent _]. discriminate Hsent.
Qed.

(** C4, amended: while the component is not disabled, submitting a draft
    whose trim is empty (the empty string and every string of white space
    only, and no other) calls [onSendCommand] exactly once, with the single
    carriage return, enqueues no update, and leaves History, Cursor and Draft
    as they were. *)
Theorem C4_submit_blank (p : CommandInputProps) (s : State) :
  disabled p = false ->
  (Js.trim (command s) = [] <-> forallb Js.isWhiteSpace (command s) = true) /\
  (Js.trim (command s) = [] ->
     sendCommand p s = [ OnSendCommand CR ] /\
     forall i, submit_trigger i -> bare_enter_effect p s i).
Proof.
  intros D. split; [apply trim_blank |].
  intros B. split.
  - now apply sendCommand_blank.
  - intros i T. now apply submit_blank.
Qed.

Lemma C4_submit_blank_witness :
  disabled enabledProps = false /\
  Js.trim (command initialState) = [] /\
  bare_enter_effect enabledProps initialState FormSubmit /\
  bare_enter_effect enabledProps
    {| command := Js.lit "  "; commandHistory := [ str_a ]; historyIndex := 0 |}
    (KeyDown (enterKey true false)).
Proof.
  split; [reflexivity |]. split; [reflexivity |]. split.
  - destruct (C4_submit_blank enabledProps initialState eq_refl) as [_ H].
    exact (proj2 (H eq_refl) FormSubmit trigger_form).
  - destruct (C4_submit_blank enabledProps
                {| command := Js.lit "  "; commandHistory := [ str_a ];
                   historyIndex := 0 |} eq_refl) as [_ H].
    exact (proj2 (H eq_refl) _ (trigger_chord true false eq_refl)).
Defined.

(** C8.  In a submission of a draft whose trim is non-empty, whatever the
    trigger, a call of [onSendCommand] comes after the History append and the
    Cursor reset of that submission: these are the updates made before the
    call (running the cells' queues up to the call gives the History with the
    draft appended, the Cursor -1 and the Draft still as typed); and it comes
    before the one remaining operation, which empties the Draft.  While the
    component is not disabled there is such a call. *)
Theorem C8_callback_between_updates (p : CommandInputProps) (s : State)
                                    (i : Interaction) :
  submit_trigger i -> Js.trim (command s) <> [] ->
  (forall pre c post,
      handle p s i = pre ++ OnSendCommand c :: post ->
      c = command s /\
      pre = [ PreventDefault; SetCommandHistory (command s); SetHistoryIndex (-1) ] /\
      next_commandHistory (commandHistory s) pre = commandHistory s ++ [ command s ] /\
      next_historyIndex (historyIndex s) pre = -1 /\
      next_command (Some (command s)) pre = Some (command s) /\
      post = [ SetCommand (Some []) ] /\
      next_command (Some (command s)) (pre ++ OnSendCommand c :: post) = Some []) /\
  (disabled p = false ->
     handle p s i =
       [ PreventDefault; SetCommandHistory (command s); SetHistoryIndex (-1) ]
       ++ OnSendCommand (command s) :: [ SetCommand (Some []) ]).
Proof.
  intros T NB.
  assert (Shape : handle p s i = [] \/ handle p s i = [ PreventDefault ] \/
                  handle p s i =
                    [ PreventDefault; SetCommandHistory (command s);
                      SetHistoryIndex (-1); OnSendCommand (command s);
                      SetCommand (Some []) ]).
  { destruct (disabled p) eqn:D.
    - destruct T as [| | ctrl meta M]; simpl.
      + right; left. unfold handleSubmit. now rewrite sendCommand_disabled.
      + left. now rewrite D.
      + right; left. rewrite handleKeyDown_chord by exact M.
        now rewrite sendCommand_disabled.
    - right; right.
      rewrite (handle_trigger p s i T D), (sendCommand_draft p s D NB).
      reflexivity. }
  split.
  - intros pre c post E.
    destruct Shape as [S | [S | S]]; rewrite S in E.
    + destruct pre; discriminate E.
    + destruct pre as [| o [| o' pre]]; discriminate E.
    + destruct pre as [| o1 [| o2 [| o3 [| o4 pre]]]]; simpl in E;
        try discriminate E.
      * injection E as <- <- <- <- <-. repeat split; reflexivity.
      * destruct pre as [| o5 [| o6 pre]]; discriminate E.
  - intros D.
    rewrite (handle_trigger p s i T D), (sendCommand_draft p s D NB).
    reflexivity.
Qed.

Lemma C8_callback_between_updates_witness :
  submit_trigger FormSubmit /\
  Js.trim (command typed_a) <> [] /\
  handle enabledProps typed_a FormSubmit =
    [ PreventDefault; SetCommandHistory str_a; SetHistoryIndex (-1) ]
    ++ OnSendCommand str_a :: [ SetCommand (Some []) ] /\
  next_commandHistory (commandHistory typed_a)
    [ PreventDefault; SetCommandHistory str_a; SetHistoryIndex (-1) ] = [ str_a ].
Proof.
  split; [constructor |]. split; [discriminate |].
  destruct (C8_callback_between_updates enabledProps typed_a FormSubmit
              trigger_form ltac:(discriminate)) as [Hord Hex].
  split; [exact (Hex eq_refl) |].
  destruct (Hord _ _ _ (Hex eq_refl)) as [_ [_ [Hh _]]].
  exact Hh.
Defined.

(** ** The cursor invariant *)

Section Invariant.

Variables (p : CommandInputProps) (s : State).
Hypothesis inv : cursor_ok s.

Lemma cursor_ok_same (c : jsstring) :
  cursor_ok {| command := c;
               commandHistory := commandHistory s;
               historyIndex := historyIndex s |}.
Proof. exact inv. Qed.

Lemma sendCommand_preserves :
  exists s', commit s (PreventDefault :: sendCommand p s) = Some s' /\ cursor_ok s'.
Proof.
  unfold sendCommand. destruct (disabled p).
  - exists s. split; [apply commit_nothing | exact inv].
  - destruct (Js.truthy (Js.trim (command s))).
    + eexists. split; [reflexivity |]. left. reflexivity.
    + exists s. split; [destruct s; reflexivity | exact inv].
Qed.

Lemma handleKeyDown_preserves (e : KeyboardEvent) :
  exists s', commit s (handleKeyDown p s e) = Some s' /\ cursor_ok s'.
Proof.
  unfold handleKeyDown.
  destruct ((ctrlKey e || metaKey e) && Js.eqb (key e) Enter);
    [apply sendCommand_preserves |].
  destruct (Js.eqb (key e) ArrowUp); [| destruct (Js.eqb (key e) ArrowDown)].
  - (* ArrowUp *)
    destruct (Z.gtb_spec (Js.length (commandHistory s)) 0) as [Pos | _];
      [| exists s; split; [apply commit_nothing | exact inv]].
    cbv zeta.
    destruct (Z.ltb_spec (historyIndex s + 1) (Js.length (commandHistory s)))
      as [LT | _]; [| exists s; split; [apply commit_nothing | exact inv]].
    destruct (index_in_range (commandHistory s)
                (Js.length (commandHistory s) - 1 - (historyIndex s + 1)))
      as [d Hd]; [destruct inv; lia |].
    rewrite commit_navigation, Hd. eexists. split; [reflexivity |].
    right. simpl. destruct inv; lia.
  - (* ArrowDown *)
    destruct (Z.gtb_spec (historyIndex s) 0) as [GT | _].
    + cbv zeta.
      destruct (index_in_range (commandHistory s)
                  (Js.length (commandHistory s) - 1 - (historyIndex s - 1)))
        as [d Hd]; [destruct inv; lia |].
      rewrite commit_navigation, Hd. eexists. split; [reflexivity |].
      right. simpl. destruct inv; lia.
    + destruct (historyIndex s =? 0).
      * eexists. split; [reflexivity |]. left. reflexivity.
      * exists s. split; [apply commit_nothing | exact inv].
  - exists s. split; [apply commit_empty | exact inv].
Qed.

Lemma step_preserves (i : Interaction) :
  exists s', step p s i = Some s' /\ cursor_ok s'.
Proof.
  unfold step. destruct i as [e | v | | d |]; simpl handle.
  - apply handleKeyDown_preserves.
  - eexists. split; [reflexivity |]. apply cursor_ok_same.
  - apply sendCommand_preserves.
  - unfold arrowButton. destruct (onSendArrowKey p); simpl;
      [destruct (disabled p) |];
      (exists s; split; [destruct s; reflexivity | exact inv]).
  - destruct (disabled p).
    + exists s. split; [apply commit_empty | exact inv].
    + apply sendCommand_preserves.
Qed.

End Invariant.

Lemma reachable_cursor_ok (s : State) : reachable s -> cursor_ok s.
Proof.
  induction 1 as [| p s i s' _ IH Hstep].
  - left. reflexivity.
  - destruct (step_preserves p s IH i) as [t [Ht OKt]].
    rewrite Ht in Hstep. injection Hstep as <-. exact OKt.
Qed.

(** Typing "a", submitting it and pressing Up reaches [browsing_a]. *)
Lemma reachable_browsing_a : reachable browsing_a.
Proof.
  apply (reachable_step enabledProps after_a pressUp); [| reflexivity].
  apply (reachable_step enabledProps typed_a FormSubmit); [| reflexivity].
  apply (reachable_step enabledProps initialState (Change str_a));
    [constructor | reflexivity].
Qed.

(** C5.  The initial state satisfies the cursor invariant; every interaction
    (any key, submit, draft edit or click, under any props) started in a
    state that satisfies it completes and yields a state that satisfies it;
    hence in every reachable state the Cursor is -1 or an index of the
    History. *)
Theorem C5_cursor_invariant :
  cursor_ok initialState /\
  (forall p s i, cursor_ok s ->
     exists s', step p s i = Some s' /\ cursor_ok s') /\
  (forall s, reachable s ->
     historyIndex s = -1 \/
     0 <= historyIndex s < Js.length (commandHistory s)).
Proof.
  split; [left; reflexivity |]. split.
  - intros p s i OK. now apply step_preserves.
  - exact reachable_cursor_ok.
Qed.

Lemma C5_cursor_invariant_witness :
  reachable browsing_a /\
  cursor_ok browsing_a /\
  exists s', step enabledProps browsing_a pressDown = Some s' /\ cursor_ok s'.
Proof.
  pose proof reachable_browsing_a as R.
  destruct C5_cursor_invariant as [_ [Hpres Hreach]].
  split; [exact R |]. split; [exact (Hreach _ R) |].
  exact (Hpres enabledProps browsing_a pressDown (Hreach _ R)).
Defined.

(** ** The disabled flag *)

Lemma eqb_eq (a b : jsstring) : Js.eqb a b = true <-> a = b.
Proof.
  revert b. induction a as [| x a IH]; intros [| y b]; simpl;
    try (split; [discriminate | congruence]); [tauto |].
  rewrite andb_true_iff, N.eqb_eq, IH. split.
  - intros [-> ->]. reflexivity.
  - intros E. injection E as -> ->. split; reflexivity.
Qed.

Lemma handle_disabled_silent (p : CommandInputProps) (s : State) (i : Interaction) :
  disabled p = true -> filter outward (handle p s i) = [].
Proof.
  intros D. destruct i as [e | v | | d |]; simpl handle.
  - unfold handleKeyDown. rewrite (sendCommand_disabled p s D).
    destruct ((ctrlKey e || metaKey e) && Js.eqb (key e) Enter); [reflexivity |].
    destruct (Js.eqb (key e) ArrowUp); [| destruct (Js.eqb (key e) ArrowDown)].
    + destruct (Js.length (commandHistory s) >? 0); [| reflexivity].
      cbv zeta.
      destruct (historyIndex s + 1 <? Js.length (commandHistory s)); reflexivity.
    + destruct (historyIndex s >? 0); [reflexivity |].
      destruct (historyIndex s =? 0); reflexivity.
    + reflexivity.
  - reflexivity.
  - unfold handleSubmit. now rewrite (sendCommand_disabled p s D).
  - unfold arrowButton. rewrite D. destruct (onSendArrowKey p); reflexivity.
  - rewrite D. reflexivity.
Qed.

(** C6.  While [disabled] is true, no interaction (a key press of any kind, a
    draft edit, a form submit, a click on a direction button or on the submit
    button) calls [onSendCommand] or [onSendArrowKey] or requests focus,
    either in its handler or in the effect of the render that follows; and
    the focus effect itself requests nothing whenever it runs. *)
Theorem C6_disabled_is_silent (p : CommandInputProps) (s : State) (i : Interaction) :
  disabled p = true ->
  filter outward (interaction_trace p s i) = [] /\
  (forall o, In o (interaction_trace p s i) ->
     (forall c, o <> OnSendCommand c) /\ (forall d, o <> OnSendArrowKey d) /\
     o <> Focus) /\
  (forall prev attached, useEffect prev p attached = []).
Proof.
  intros D.
  assert (F : filter outward (interaction_trace p s i) = []).
  { unfold interaction_trace. rewrite filter_app, (handle_disabled_silent p s i D).
    simpl. now rewrite eqb_reflx. }
  split; [exact F |]. split.
  - intros o Hin.
    assert (Q : outward o = false).
    { destruct (outward o) eqn:Q; [| reflexivity].
      assert (Hf : In o (filter outward (interaction_trace p s i)))
        by (apply filter_In; split; assumption).
      rewrite F in Hf. destruct Hf. }
    repeat split; intros; intros ->; discriminate Q.
  - intros prev attached. unfold useEffect, focusEffect. rewrite D. simpl.
    destruct prev as [d |]; [destruct (Bool.eqb d true) |]; reflexivity.
Qed.

Lemma C6_disabled_is_silent_witness :
  disabled disabledProps = true /\
  filter outward (interaction_trace disabledProps typed_a (ClickArrow Left)) = [] /\
  filter outward
    (interaction_trace disabledProps typed_a (KeyDown (enterKey true false))) = [].
Proof.
  split; [reflexivity |]. split.
  - exact (proj1 (C6_disabled_is_silent disabledProps typed_a (ClickArrow Left) eq_refl)).
  - exact (proj1 (C6_disabled_is_silent disabledProps typed_a
                    (KeyDown (enterKey true false)) eq_refl)).
Defined.

(** C9.  The Up branch of the key handler does not test [disabled]: with
    [disabled] true, a non-empty History and [Cursor + 1 < length], an ArrowUp
    key event makes the handler enqueue the same Cursor and Draft updates as
    with [disabled] false, and the next state is the same; inside the
    handler, only the submit chord is stopped by [disabled]. *)
Theorem C9_up_ignores_disabled (p : CommandInputProps) (s : State)
                               (e : KeyboardEvent) :
  disabled p = true -> key e = ArrowUp -> commandHistory s <> [] ->
  historyIndex s + 1 < Js.length (commandHistory s) ->
  let q := {| disabled := false; onSendArrowKey := onSendArrowKey p |} in
  handleKeyDown p s e =
    [ PreventDefault; SetHistoryIndex (historyIndex s + 1);
      SetCommand (Js.index (commandHistory s)
                    (Js.length (commandHistory s) - 1 - (historyIndex s + 1))) ] /\
  handleKeyDown p s e = handleKeyDown q s e /\
  step p s (KeyDown e) = step q s (KeyDown e) /\
  (forall ctrl meta, ctrl || meta = true ->
     handleKeyDown p s (enterKey ctrl meta) = [ PreventDefault ]).
Proof.
  intros D K NE LT q.
  pose proof (handleKeyDown_up_moves p s e K NE LT) as Ep.
  pose proof (handleKeyDown_up_moves q s e K NE LT) as Eq.
  split; [exact Ep |]. split; [now rewrite Ep, Eq |]. split.
  - unfold step. simpl handle. now rewrite Ep, Eq.
  - intros ctrl meta M. rewrite (handleKeyDown_chord p s ctrl meta M).
    now rewrite (sendCommand_disabled p s D).
Qed.

Lemma C9_up_ignores_disabled_witness :
  disabled disabledProps = true /\
  key (upKey false false) = ArrowUp /\
  commandHistory after_a <> [] /\
  historyIndex after_a + 1 < Js.length (commandHistory after_a) /\
  handleKeyDown disabledProps after_a (upKey false false) =
    [ PreventDefault; SetHistoryIndex 0; SetCommand (Some str_a) ] /\
  step disabledProps after_a pressUp = step enabledProps after_a pressUp.
Proof.
  split; [reflexivity |]. split; [reflexivity |]. split; [discriminate |].
  split; [reflexivity |].
  destruct (C9_up_ignores_disabled disabledProps after_a (upKey false false)
              eq_refl eq_refl ltac:(discriminate) eq_refl) as [H1 [_ [H3 _]]].
  split; [exact H1 | exact H3].
Defined.

(** ** Modifiers and navigation *)

(** C7, as stated, fails: with Ctrl held, an Up key press after "a" was
    submitted moves the Cursor from -1 to 0 and puts "a" in the Draft. *)
Lemma C7_ctrl_up_counterexample :
  key (upKey true false) = ArrowUp /\
  ctrlKey (upKey true false) = true /\
  step enabledProps after_a (KeyDown (upKey true false)) = Some browsing_a /\
  historyIndex browsing_a <> historyIndex after_a /\
  command browsing_a <> command after_a.
Proof.
  repeat split; try reflexivity; discriminate.
Qed.

(** C7, amended: history navigation occurs on every Up or Down key press,
    whether or not Ctrl or Meta is held; the handler performs the same
    operations, and the Cursor and the Draft change in the same way, as for
    the key without modifiers.  (The modifiers are read only together with
    Enter: a key other than Enter is handled the same with and without
    them.) *)
Theorem C7_navigation_ignores_modifiers (p : CommandInputProps) (s : State)
                                        (e : KeyboardEvent) :
  let plain := {| key := key e; ctrlKey := false; metaKey := false |} in
  (key e = ArrowUp \/ key e = ArrowDown ->
     handleKeyDown p s e = handleKeyDown p s plain /\
     step p s (KeyDown e) = step p s (KeyDown plain)) /\
  (key e <> Enter -> handleKeyDown p s e = handleKeyDown p s plain).
Proof.
  intros plain.
  assert (G : key e <> Enter -> handleKeyDown p s e = handleKeyDown p s plain).
  { intros NE. unfold handleKeyDown, plain. simpl.
    destruct (Js.eqb (key e) Enter) eqn:E.
    - apply eqb_eq in E. contradiction.
    - now rewrite andb_false_r. }
  split; [| exact G].
  intros K.
  assert (NE : key e <> Enter) by (destruct K as [-> | ->]; discriminate).
  split; [exact (G NE) |]. unfold step. simpl handle. now rewrite (G NE).
Qed.

Lemma C7_navigation_ignores_modifiers_witness :
  key (upKey true true) = ArrowUp /\
  step enabledProps after_a (KeyDown (upKey true true)) =
  step enabledProps after_a pressUp.
Proof.
  split; [reflexivity |].
  exact (proj2 (proj1 (C7_navigation_ignores_modifiers enabledProps after_a
                         (upKey true true)) (or_introl eq_refl))).
Defined.

(** ** Editing while browsing *)

(** C10, as stated, fails at the oldest entry: browsing the only entry "a"
    (Cursor 0), the draft is edited to "ax"; the Up press that follows
    changes nothing, so the Draft stays "ax", which is no History entry. *)
Lemma C10_oldest_entry_counterexample :
  reachable browsing_a /\
  0 <= historyIndex browsing_a /\
  step enabledProps browsing_a (Change str_ax) = Some edited_ax /\
  step enabledProps edited_ax pressUp = Some edited_ax /\
  command edited_ax = str_ax /\
  ~ In (command edited_ax) (commandHistory edited_ax).
Proof.
  split; [exact reachable_browsing_a |]. split; [discriminate |].
  split; [reflexivity |]. split; [reflexivity |]. split; [reflexivity |].
  intros [H | []]. discriminate H.
Qed.

(** C10, amended: editing the text field while browsing history
    (Cursor >= 0) changes only the Draft and leaves the Cursor and the
    History unchanged; the Up press that follows is handled as from the
    unedited state: when [Cursor + 1 < length] it moves the Cursor to
    [Cursor + 1] and replaces the edited Draft with the History entry there,
    and when the Cursor is already at the oldest entry it changes nothing and
    the edited Draft stays. *)
Theorem C10_edit_keeps_cursor (p q : CommandInputProps) (s : State)
                              (v : jsstring) (e : KeyboardEvent) :
  0 <= historyIndex s -> key e = ArrowUp ->
  let c := historyIndex s in
  let n := Js.length (commandHistory s) in
  let edited := {| command := v;
                   commandHistory := commandHistory s;
                   historyIndex := c |} in
  step p s (Change v) = Some edited /\
  handleKeyDown q edited e = handleKeyDown q s e /\
  (c + 1 < n ->
     exists d,
       Js.index (commandHistory s) (n - 1 - (c + 1)) = Some d /\
       step q edited (KeyDown e) =
         Some {| command := d;
                 commandHistory := commandHistory s;
                 historyIndex := c + 1 |}) /\
  (n <= c + 1 -> step q edited (KeyDown e) = Some edited).
Proof.
  intros GE K c n edited. subst c n.
  split; [reflexivity |]. split.
  - rewrite (handleKeyDown_up q edited e K), (handleKeyDown_up q s e K).
    reflexivity.
  - split.
    + intros LT.
      assert (NE : commandHistory edited <> []).
      { simpl. intros E. rewrite E in LT. unfold Js.length in LT. simpl in LT. lia. }
      destruct (index_in_range (commandHistory s)
                  (Js.length (commandHistory s) - 1 - (historyIndex s + 1)))
        as [d Hd]; [lia |].
      exists d. split; [exact Hd |].
      unfold step. simpl handle.
      rewrite (handleKeyDown_up_moves q edited e K NE LT), commit_navigation.
      simpl. rewrite Hd. reflexivity.
    + intros LE. unfold step. simpl handle.
      rewrite (handleKeyDown_up_stays q edited e K LE).
      apply commit_nothing.
Qed.

Lemma C10_edit_keeps_cursor_witness :
  0 <= historyIndex browsing_a /\
  0 <= historyIndex newest_of_ab /\
  key (upKey false false) = ArrowUp /\
  step enabledProps browsing_a (Change str_ax) = Some edited_ax /\
  step enabledProps edited_ax pressUp = Some edited_ax /\
  run enabledProps newest_of_ab [ Change str_ax; pressUp ] = Some oldest_of_ab.
Proof.
  split; [discriminate |]. split; [discriminate |]. split; [reflexivity |].
  destruct (C10_edit_keeps_cursor enabledProps enabledProps browsing_a str_ax
              (upKey false false) ltac:(discriminate) eq_refl)
    as [Hedit [_ [_ Hstay]]].
  split; [exact Hedit |].
  split; [exact (Hstay ltac:(discriminate)) |].
  destruct (C10_edit_keeps_cursor enabledProps enabledProps newest_of_ab str_ax
              (upKey false false) ltac:(discriminate) eq_refl)
    as [Hedit2 [_ [Hmove _]]].
  destruct (Hmove eq_refl) as [d [Hd Hstep]].
  cbn [run]. rewrite Hedit2. cbv zeta. unfold pressUp. rewrite Hstep.
  injection Hd as <-. reflexivity.
Defined.

(** ** Further properties of the handlers *)

(** *** Single navigation steps as state transitions *)

Section NavigationSteps.

Variables (p : CommandInputProps) (s : State).

Lemma length_pos_inv {A} (a : list A) : 0 < Js.length a -> a <> [].
Proof. intros H E. rewrite E in H. unfold Js.length in H. simpl in H. lia. Qed.

Lemma step_up_moves :
  -1 <= historyIndex s ->
  historyIndex s + 1 < Js.length (commandHistory s) ->
  exists d,
    Js.index (commandHistory s)
      (Js.length (commandHistory s) - 1 - (historyIndex s + 1)) = Some d /\
    step p s pressUp =
      Some {| command := d;
              commandHistory := commandHistory s;
              historyIndex := historyIndex s + 1 |}.
Proof.
  intros LO LT.
  assert (NE : commandHistory s <> []) by (apply length_pos_inv; lia).
  destruct (index_in_range (commandHistory s)
              (Js.length (commandHistory s) - 1 - (historyIndex s + 1)))
    as [d Hd]; [lia |].
  exists d. split; [exact Hd |].
  unfold step, pressUp. simpl handle.
  rewrite (handleKeyDown_up_moves p s (upKey false false) eq_refl NE LT).
  rewrite commit_navigation, Hd. reflexivity.
Qed.

Lemma step_up_stays :
  Js.length (commandHistory s) <= historyIndex s + 1 ->
  step p s pressUp = Some s.
Proof.
  intros GE. unfold step, pressUp. simpl handle.
  rewrite (handleKeyDown_up_stays p s (upKey false false) eq_refl GE).
  apply commit_nothing.
Qed.

Lemma step_down_moves :
  0 < historyIndex s < Js.length (commandHistory s) ->
  exists d,
    Js.index (commandHistory s)
      (Js.length (commandHistory s) - 1 - (historyIndex s - 1)) = Some d /\
    step p s pressDown =
      Some {| command := d;
              commandHistory := commandHistory s;
              historyIndex := historyIndex s - 1 |}.
Proof.
  intros R.
  destruct (index_in_range (commandHistory s)
              (Js.length (commandHistory s) - 1 - (historyIndex s - 1)))
    as [d Hd]; [lia |].
  exists d. split; [exact Hd |].
  unfold step, pressDown. simpl handle.
  rewrite (handleKeyDown_down_moves p s (downKey false false) eq_refl)
    by lia.
  rewrite commit_navigation, Hd. reflexivity.
Qed.

Lemma step_down_leaves :
  historyIndex s = 0 ->
  step p s pressDown =
    Some {| command := [];
            commandHistory := commandHistory s;
            historyIndex := -1 |}.
Proof.
  intros Z0. unfold step, pressDown. simpl handle.
  rewrite (handleKeyDown_down_leaves p s (downKey false false) eq_refl Z0).
  apply (commit_navigation s (-1) (Some [])).
Qed.

Lemma step_down_stays :
  historyIndex s < 0 -> step p s pressDown = Some s.
Proof.
  intros LT. unfold step, pressDown. simpl handle.
  rewrite (handleKeyDown_down_stays p s (downKey false false) eq_refl LT).
  apply commit_nothing.
Qed.

End NavigationSteps.

Lemma run_cons (p : CommandInputProps) (s s' : State) (i : Interaction)
               (ins : list Interaction) :
  step p s i = Some s' -> run p s (i :: ins) = run p s' ins.
Proof. intros H. cbn [run]. now rewrite H. Qed.

Lemma run_up_at_oldest (p : CommandInputProps) (s : State) (k : nat) :
  Js.length (commandHistory s) <= historyIndex s + 1 ->
  run p s (repeat pressUp k) = Some s.
Proof.
  intros GE. induction k as [| k IH]; [reflexivity |].
  cbn [repeat]. rewrite (run_cons p s s); [exact IH | now apply step_up_stays].
Qed.

Lemma run_down_at_live (p : CommandInputProps) (s : State) (k : nat) :
  historyIndex s < 0 -> run p s (repeat pressDown k) = Some s.
Proof.
  intros LT. induction k as [| k IH]; [reflexivity |].
  cbn [repeat]. rewrite (run_cons p s s); [exact IH | now apply step_down_stays].
Qed.

(** *** Walking the history *)

(** Any number [k+1] of Up presses, started where at least one entry is left
    above the Cursor [c], ends at Cursor [min (c+k+1) (length-1)] with the
    Draft equal to the History entry there: the walk goes one entry per
    press and stops at the oldest entry, however many presses follow. *)
Theorem up_presses_walk_and_stop (k : nat) :
  forall (p : CommandInputProps) (s : State),
    -1 <= historyIndex s ->
    historyIndex s + 1 < Js.length (commandHistory s) ->
    let n := Js.length (commandHistory s) in
    let c' := Z.min (historyIndex s + 1 + Z.of_nat k) (n - 1) in
    exists d,
      Js.index (commandHistory s) (n - 1 - c') = Some d /\
      run p s (repeat pressUp (S k)) =
        Some {| command := d;
                commandHistory := commandHistory s;
                historyIndex := c' |}.
Proof.
  induction k as [| k IH]; intros p s LO LT n c'; subst n c'.
  - destruct (step_up_moves p s LO LT) as [d [Hd Hs]].
    replace (Z.min (historyIndex s + 1 + Z.of_nat 0)
                   (Js.length (commandHistory s) - 1))
      with (historyIndex s + 1) by lia.
    exists d. split; [exact Hd |].
    cbn [repeat]. rewrite (run_cons _ _ _ _ _ Hs). reflexivity.
  - destruct (step_up_moves p s LO LT) as [d1 [Hd1 Hs1]].
    change (repeat pressUp (S (S k))) with (pressUp :: repeat pressUp (S k)).
    rewrite (run_cons _ _ _ _ _ Hs1).
    destruct (Z_lt_ge_dec (historyIndex s + 2) (Js.length (commandHistory s)))
      as [More | Last].
    + destruct (IH p {| command := d1;
                        commandHistory := commandHistory s;
                        historyIndex := historyIndex s + 1 |})
        as [d [Hd Hr]];
        cbn [command commandHistory historyIndex] in *; try lia.
      replace (Z.min (historyIndex s + 1 + Z.of_nat (S k))
                     (Js.length (commandHistory s) - 1))
        with (Z.min (historyIndex s + 1 + 1 + Z.of_nat k)
                    (Js.length (commandHistory s) - 1)) by lia.
      exists d. split; [exact Hd | exact Hr].
    + replace (Z.min (historyIndex s + 1 + Z.of_nat (S k))
                     (Js.length (commandHistory s) - 1))
        with (historyIndex s + 1) by lia.
      exists d1. split; [exact Hd1 |].
      apply run_up_at_oldest. cbn [commandHistory historyIndex]. lia.
Qed.

Lemma up_presses_walk_and_stop_witness :
  -1 <= historyIndex after_abc /\
  historyIndex after_abc + 1 < Js.length (commandHistory after_abc) /\
  run disabledProps after_abc (repeat pressUp 2) =
    Some {| command := str_b;
            commandHistory := [ str_a; str_b; str_c ]; historyIndex := 1 |} /\
  run disabledProps after_abc (repeat pressUp 7) =
    Some {| command := str_a;
            commandHistory := [ str_a; str_b; str_c ]; historyIndex := 2 |}.
Proof.
  split; [discriminate |]. split; [reflexivity |]. split.
  - destruct (up_presses_walk_and_stop 1 disabledProps after_abc
                ltac:(discriminate) eq_refl) as [d [Hd Hr]].
    injection Hd as <-. exact Hr.
  - destruct (up_presses_walk_and_stop 6 disabledProps after_abc
                ltac:(discriminate) eq_refl) as [d [Hd Hr]].
    injection Hd as <-. exact Hr.
Defined.

(** From any Cursor [c] inside the History, [c+1] or more Down presses end
    in live editing: Cursor -1 and an empty Draft, the History untouched. *)
Theorem down_presses_return_to_live (k : nat) :
  forall (p : CommandInputProps) (s : State),
    0 <= historyIndex s < Js.length (commandHistory s) ->
    historyIndex s + 1 <= Z.of_nat k ->
    run p s (repeat pressDown k) =
      Some {| command := [];
              commandHistory := commandHistory s;
              historyIndex := -1 |}.
Proof.
  induction k as [| k IH]; intros p s R K; [simpl in K; lia |].
  cbn [repeat].
  destruct (Z.eq_dec (historyIndex s) 0) as [Z0 | NZ].
  - rewrite (run_cons _ _ _ _ _ (step_down_leaves p s Z0)).
    apply run_down_at_live. simpl. lia.
  - destruct (step_down_moves p s) as [d [_ Hs]]; [lia |].
    rewrite (run_cons _ _ _ _ _ Hs).
    apply (IH p {| command := d;
                   commandHistory := commandHistory s;
                   historyIndex := historyIndex s - 1 |}); simpl; lia.
Qed.

Lemma down_presses_return_to_live_witness :
  0 <= historyIndex oldest_of_ab < Js.length (commandHistory oldest_of_ab) /\
  historyIndex oldest_of_ab + 1 <= Z.of_nat 5 /\
  run enabledProps oldest_of_ab (repeat pressDown 5) =
    Some {| command := [];
            commandHistory := [ str_a; str_b ]; historyIndex := -1 |}.
Proof.
  split; [split; [discriminate | reflexivity] |]. split; [discriminate |].
  apply (down_presses_return_to_live 5 enabledProps oldest_of_ab).
  - split; [discriminate | reflexivity].
  - discriminate.
Defined.

(** *** Round trips *)



(** Down then Up, started on an entry, comes back to that entry: the Cursor
    is the same and the Draft is the entry under it, whatever edit the Draft
    carried before. *)
Theorem down_then_up_restores_entry (p q : CommandInputProps) (s : State) :
  0 <= historyIndex s < Js.length (commandHistory s) ->
  let c := historyIndex s in
  let n := Js.length (commandHistory s) in
  exists mid d,
    step p s pressDown = Some mid /\
    Js.index (commandHistory s) (n - 1 - c) = Some d /\
    step q mid pressUp =
      Some {| command := d;
              commandHistory := commandHistory s;
              historyIndex := c |}.
Proof.
  intros R c n. subst c n.
  assert (Back : forall m,
             historyIndex m = historyIndex s - 1 ->
             commandHistory m = commandHistory s ->
             exists d,
               Js.index (commandHistory s)
                 (Js.length (commandHistory s) - 1 - historyIndex s) = Some d /\
               step q m pressUp =
                 Some {| command := d;
                         commandHistory := commandHistory s;
                         historyIndex := historyIndex s |}).
  { intros m Hc Hh.
    destruct (step_up_moves q m) as [d [Hd Hs]]; rewrite ?Hc, ?Hh; try lia.
    rewrite Hc, Hh in Hd, Hs.
    replace (historyIndex s - 1 + 1) with (historyIndex s) in Hd, Hs by lia.
    exists d. split; [exact Hd | exact Hs]. }
  destruct (Z.eq_dec (historyIndex s) 0) as [Z0 | NZ].
  - destruct (Back {| command := [];
                      commandHistory := commandHistory s;
                      historyIndex := -1 |}) as [d [Hd Hs]];
      cbn [commandHistory historyIndex]; [lia | reflexivity |].
    eexists. exists d.
    split; [exact (step_down_leaves p s Z0) |]. split; [exact Hd | exact Hs].
  - destruct (step_down_moves p s) as [d0 [_ Hdown]]; [lia |].
    destruct (Back {| command := d0;
                      commandHistory := commandHistory s;
                      historyIndex := historyIndex s - 1 |}) as [d [Hd Hs]];
      cbn [commandHistory historyIndex]; [reflexivity | reflexivity |].
    eexists. exists d.
    split; [exact Hdown |]. split; [exact Hd | exact Hs].
Qed.

Lemma down_then_up_restores_entry_witness :
  0 <= historyIndex edited_ax < Js.length (commandHistory edited_ax) /\
  run enabledProps edited_ax [ pressDown; pressUp ] = Some browsing_a.
Proof.
  split; [split; [discriminate | reflexivity] |].
  destruct (down_then_up_restores_entry enabledProps enabledProps edited_ax)
    as [mid [d [Hdown [Hd Hup]]]]; [split; [discriminate | reflexivity] |].
  rewrite (run_cons _ _ _ _ _ Hdown), (run_cons _ _ _ _ _ Hup).
  injection Hd as <-. reflexivity.
Defined.

(** *** Submitting and recalling *)

(** A submitted draft is the first thing Up brings back: after an enabled
    submission of a draft whose trim is non-empty, from any state, one Up
    press puts that draft, untrimmed, back in the Draft, at Cursor 0. *)
Theorem submit_then_up_recalls_draft (p q : CommandInputProps) (s : State)
                                     (i : Interaction) :
  disabled p = false -> submit_trigger i -> Js.trim (command s) <> [] ->
  exists mid,
    step p s i = Some mid /\
    step q mid pressUp =
      Some {| command := command s;
              commandHistory := commandHistory s ++ [ command s ];
              historyIndex := 0 |}.
Proof.
  intros D T NB.
  destruct (submit_draft p s D i T NB) as [_ Hs].
  eexists. split; [exact Hs |].
  destruct (step_up_moves q
              {| command := [];
                 commandHistory := commandHistory s ++ [ command s ];
                 historyIndex := -1 |}) as [d [Hd Hup]];
    cbn [command commandHistory historyIndex] in *;
    [ lia
    | rewrite length_app1; pose proof (length_nonneg (commandHistory s)); lia
    | ].
  rewrite length_app1 in Hd.
  replace (Js.length (commandHistory s) + 1 - 1 - (-1 + 1))
    with (Js.length (commandHistory s)) in Hd by lia.
  unfold Js.index, Js.length in Hd.
  destruct (Z.ltb_spec (Z.of_nat (List.length (commandHistory s))) 0) as [Neg | _];
    [lia |].
  rewrite Nat2Z.id, nth_error_app2, Nat.sub_diag in Hd by lia.
  injection Hd as <-. exact Hup.
Qed.

Lemma submit_then_up_recalls_draft_witness :
  disabled enabledProps = false /\
  submit_trigger ClickSubmit /\
  Js.trim (command edited_ax) <> [] /\
  run enabledProps edited_ax [ ClickSubmit; pressUp ] =
    Some {| command := str_ax;
            commandHistory := [ str_a; str_ax ]; historyIndex := 0 |}.
Proof.
  split; [reflexivity |]. split; [constructor |]. split; [discriminate |].
  destruct (submit_then_up_recalls_draft enabledProps enabledProps edited_ax
              ClickSubmit eq_refl trigger_button ltac:(discriminate))
    as [mid [Hsub Hup]].
  rewrite (run_cons _ _ _ _ _ Hsub), (run_cons _ _ _ _ _ Hup).
  reflexivity.
Defined.

(** Submitting twice in a row sends the draft once: after an enabled
    submission of a draft whose trim is non-empty, a second submission sends
    a bare carriage return and changes nothing, so the History holds the
    draft once. *)
Theorem double_submit_sends_draft_once (p : CommandInputProps) (s : State)
                                       (i j : Interaction) :
  disabled p = false -> submit_trigger i -> submit_trigger j ->
  Js.trim (command s) <> [] ->
  exists mid,
    step p s i = Some mid /\
    sent (handle p s i) = [ command s ] /\
    sent (handle p mid j) = [ CR ] /\
    step p mid j = Some mid /\
    commandHistory mid = commandHistory s ++ [ command s ].
Proof.
  intros D Ti Tj NB.
  destruct (submit_draft p s D i Ti NB) as [Hsent Hs].
  eexists. split; [exact Hs |]. split; [exact Hsent |].
  destruct (submit_blank p
              {| command := [];
                 commandHistory := commandHistory s ++ [ command s ];
                 historyIndex := -1 |} D j Tj eq_refl) as [Hsent2 Hs2].
  split; [exact Hsent2 |]. split; [exact Hs2 | reflexivity].
Qed.

Lemma double_submit_sends_draft_once_witness :
  disabled enabledProps = false /\
  submit_trigger ClickSubmit /\
  submit_trigger (KeyDown (enterKey false true)) /\
  Js.trim (command typed_a) <> [] /\
  run enabledProps typed_a [ ClickSubmit; KeyDown (enterKey false true) ] =
    Some after_a.
Proof.
  split; [reflexivity |]. split; [constructor |].
  split; [now constructor |]. split; [discriminate |].
  destruct (double_submit_sends_draft_once enabledProps typed_a ClickSubmit
              (KeyDown (enterKey false true)) eq_refl trigger_button
              (trigger_chord false true eq_refl) ltac:(discriminate))
    as [mid [H1 [_ [_ [H2 Hh]]]]].
  rewrite (run_cons _ _ _ _ _ H1), (run_cons _ _ _ _ _ H2).
  cbn [run]. destruct (submit_draft enabledProps typed_a eq_refl ClickSubmit
                         trigger_button ltac:(discriminate)) as [_ E].
  rewrite E in H1. injection H1 as <-. reflexivity.
Defined.

(** *** What each interaction can do *)

Ltac absent := simpl; intuition discriminate.

Lemma sendCommand_shape (p : CommandInputProps) (s : State) :
  (disabled p = true /\ sendCommand p s = []) \/
  (disabled p = false /\ Js.trim (command s) = [] /\
   sendCommand p s = [ OnSendCommand CR ]) \/
  (disabled p = false /\ Js.trim (command s) <> [] /\
   sendCommand p s =
     [ SetCommandHistory (command s); SetHistoryIndex (-1);
       OnSendCommand (command s); SetCommand (Some []) ]).
Proof.
  destruct (disabled p) eqn:D.
  - left. split; [reflexivity | now apply sendCommand_disabled].
  - right. destruct (Js.trim (command s)) eqn:T.
    + left. split; [reflexivity |]. split; [reflexivity |].
      now apply sendCommand_blank.
    + right. split; [reflexivity |]. split; [discriminate |].
      apply sendCommand_draft; [exact D | rewrite T; discriminate].
Qed.

Lemma chord_event (e : KeyboardEvent) :
  (ctrlKey e || metaKey e) && Js.eqb (key e) Enter = true ->
  ctrlKey e || metaKey e = true /\ e = enterKey (ctrlKey e) (metaKey e).
Proof.
  intros C. apply andb_true_iff in C. destruct C as [M K].
  apply eqb_eq in K. split; [exact M |].
  destruct e as [k c m]. simpl in K. subst k. reflexivity.
Qed.

(** An interaction either runs [sendCommand] while enabled, or neither calls
    [onSendCommand] nor appends to the History. *)
Lemma handle_shape (p : CommandInputProps) (s : State) (i : Interaction) :
  (submit_trigger i /\ disabled p = false /\
   handle p s i = PreventDefault :: sendCommand p s) \/
  ((forall c, ~ In (OnSendCommand c) (handle p s i)) /\
   (forall c, ~ In (SetCommandHistory c) (handle p s i))).
Proof.
  destruct i as [e | v | | d |]; simpl handle.
  - unfold handleKeyDown.
    destruct ((ctrlKey e || metaKey e) && Js.eqb (key e) Enter) eqn:C.
    + destruct (chord_event e C) as [M E].
      destruct (disabled p) eqn:D.
      * right. rewrite (sendCommand_disabled p s D). split; intros c; absent.
      * left. split; [rewrite E; now constructor |]. split; reflexivity.
    + right.
      destruct (Js.eqb (key e) ArrowUp); [| destruct (Js.eqb (key e) ArrowDown)].
      * destruct (Js.length (commandHistory s) >? 0);
          [cbv zeta;
           destruct (historyIndex s + 1 <? Js.length (commandHistory s)) |];
          split; intros c; absent.
      * destruct (historyIndex s >? 0);
          [| destruct (historyIndex s =? 0)]; split; intros c; absent.
      * split; intros c; absent.
  - right. split; intros c; absent.
  - destruct (disabled p) eqn:D.
    + right. unfold handleSubmit. rewrite (sendCommand_disabled p s D).
      split; intros c; absent.
    + left. split; [constructor |]. split; reflexivity.
  - right. unfold arrowButton.
    destruct (onSendArrowKey p); [destruct (disabled p) |];
      split; intros c; absent.
  - destruct (disabled p) eqn:D.
    + right. split; intros c; absent.
    + left. split; [constructor |]. split; reflexivity.
Qed.

Lemma next_commandHistory_untouched (ops : list Op) :
  (forall c, ~ In (SetCommandHistory c) ops) ->
  forall h, next_commandHistory h ops = h.
Proof.
  unfold next_commandHistory.
  induction ops as [| o ops IH]; intros No h; [reflexivity |].
  simpl. destruct o as [| v | c | j | c | d |];
    try (apply IH; intros c' Hin; apply (No c'); now right).
  exfalso. apply (No c). now left.
Qed.

Lemma commit_history (s s' : State) (ops : list Op) :
  commit s ops = Some s' ->
  commandHistory s' = next_commandHistory (commandHistory s) ops.
Proof.
  unfold commit. destruct (next_command (Some (command s)) ops); [| discriminate].
  intros E. injection E as <-. reflexivity.
Qed.

(** One interaction leaves the History as it is or appends the draft it has
    just sent, and that draft has a non-empty trim. *)
Lemma step_history (p : CommandInputProps) (s s' : State) (i : Interaction) :
  step p s i = Some s' ->
  commandHistory s' = commandHistory s \/
  (disabled p = false /\ submit_trigger i /\ Js.trim (command s) <> [] /\
   s' = {| command := [];
           commandHistory := commandHistory s ++ [ command s ];
           historyIndex := -1 |}).
Proof.
  unfold step. intros Hs.
  destruct (handle_shape p s i) as [[T [D E]] | [_ NoApp]].
  - destruct (sendCommand_shape p s) as [[D' _] | [[_ [B S]] | [_ [NB S]]]].
    + congruence.
    + left. rewrite (commit_history _ _ _ Hs), E, S. reflexivity.
    + right. split; [exact D |]. split; [exact T |]. split; [exact NB |].
      rewrite E, S in Hs. injection Hs as <-. reflexivity.
  - left. rewrite (commit_history _ _ _ Hs).
    now apply next_commandHistory_untouched.
Qed.

(** The History is append-only.  Over any sequence of interactions that
    completes, the History of the start is a prefix of the History of the
    end; at most one entry is added per interaction, and every added entry
    has a non-empty trim. *)
Theorem history_append_only (ins : list Interaction) :
  forall (p : CommandInputProps) (s s' : State),
    run p s ins = Some s' ->
    exists added,
      commandHistory s' = commandHistory s ++ added /\
      (List.length added <= List.length ins)%nat /\
      Forall (fun d => Js.trim d <> []) added.
Proof.
  induction ins as [| i ins IH]; intros p s s' R.
  - injection R as <-. exists []. rewrite app_nil_r. repeat split; constructor.
  - cbn [run] in R. destruct (step p s i) as [mid |] eqn:Hs; [| discriminate].
    destruct (IH p mid s' R) as [added [Hh [Hl Hf]]].
    destruct (step_history p s mid i Hs) as [Same | [_ [_ [NB ->]]]].
    + exists added. rewrite Hh, Same. split; [reflexivity |].
      split; [simpl; lia | exact Hf].
    + exists (command s :: added). cbn [commandHistory] in Hh.
      rewrite Hh, <- app_assoc. split; [reflexivity |].
      split; [simpl; lia | now constructor].
Qed.

Lemma history_append_only_witness :
  run enabledProps typed_after_a [ FormSubmit; FormSubmit; pressUp ] =
    Some newest_of_ab /\
  exists added,
    commandHistory newest_of_ab = commandHistory typed_after_a ++ added /\
    (List.length added <= 3)%nat /\
    Forall (fun d => Js.trim d <> []) added.
Proof.
  split; [reflexivity |].
  exact (history_append_only [ FormSubmit; FormSubmit; pressUp ]
           enabledProps typed_after_a newest_of_ab eq_refl).
Defined.

(** No blank entry ever enters the History: in every reachable state each
    History entry has a non-empty trim. *)
Theorem history_entries_not_blank (s : State) :
  reachable s -> Forall (fun d => Js.trim d <> []) (commandHistory s).
Proof.
  induction 1 as [| p s i s' _ IH Hs]; [constructor |].
  destruct (step_history p s s' i Hs) as [Same | [_ [_ [NB ->]]]].
  - now rewrite Same.
  - cbn [commandHistory]. apply Forall_app. split; [exact IH |].
    constructor; [exact NB | constructor].
Qed.

Lemma history_entries_not_blank_witness :
  reachable browsing_a /\
  Forall (fun d => Js.trim d <> []) (commandHistory browsing_a).
Proof.
  split; [exact reachable_browsing_a |].
  exact (history_entries_not_blank browsing_a reachable_browsing_a).
Defined.

(** [onSendCommand] is called only by an enabled submission, once, and with
    one of two arguments: the draft as typed when its trim is non-empty, a
    single carriage return otherwise.  In particular no key press without
    Ctrl or Meta and no edit sends anything, and no blank text other than
    the carriage return is ever sent. *)
Theorem send_command_only_on_submit (p : CommandInputProps) (s : State)
                                    (i : Interaction) (c : jsstring) :
  In (OnSendCommand c) (handle p s i) ->
  disabled p = false /\ submit_trigger i /\
  sent (handle p s i) = [ c ] /\
  ((Js.trim (command s) <> [] /\ c = command s) \/
   (Js.trim (command s) = [] /\ c = CR)).
Proof.
  intros Hin.
  destruct (handle_shape p s i) as [[T [D E]] | [NoSend _]];
    [| now destruct (NoSend c)].
  split; [exact D |]. split; [exact T |].
  rewrite E in *.
  destruct (sendCommand_shape p s) as [[D' _] | [[_ [B S]] | [_ [NB S]]]];
    [congruence | |]; rewrite S in *; simpl in Hin.
  - destruct Hin as [H | [H | []]]; [discriminate H |].
    injection H as <-. split; [reflexivity |]. right. split; [exact B | reflexivity].
  - destruct Hin as [H | [H | [H | [H | [H | []]]]]]; try discriminate H.
    injection H as <-. split; [reflexivity |]. left. split; [exact NB | reflexivity].
Qed.

Lemma send_command_only_on_submit_witness :
  In (OnSendCommand str_b)
     (handle enabledProps typed_after_a (KeyDown (enterKey true false))) /\
  submit_trigger (KeyDown (enterKey true false)) /\
  sent (handle enabledProps typed_after_a (KeyDown (enterKey true false))) =
    [ str_b ].
Proof.
  assert (Hin : In (OnSendCommand str_b)
                   (handle enabledProps typed_after_a
                      (KeyDown (enterKey true false)))).
  { simpl. right. right. right. left. reflexivity. }
  split; [exact Hin |].
  destruct (send_command_only_on_submit enabledProps typed_after_a
              (KeyDown (enterKey true false)) str_b Hin) as [_ [T [S _]]].
  split; [exact T | exact S].
Defined.

(** [onSendArrowKey] is called exactly by a click on a direction button while
    the component is enabled and the callback was passed, with the direction
    of that button; the click does nothing else and changes no state.  The
    Up and Down keys of the keyboard never reach this callback. *)
Theorem arrow_callback_only_from_buttons (p : CommandInputProps) (s : State)
                                         (i : Interaction) (d : Direction) :
  (In (OnSendArrowKey d) (handle p s i) <->
   i = ClickArrow d /\ disabled p = false /\ onSendArrowKey p = true) /\
  (In (OnSendArrowKey d) (handle p s i) ->
   handle p s i = [ OnSendArrowKey d ] /\ step p s i = Some s).
Proof.
  assert (Fwd : In (OnSendArrowKey d) (handle p s i) ->
                i = ClickArrow d /\ disabled p = false /\ onSendArrowKey p = true).
  { destruct i as [e | v | | d' |]; simpl handle.
    - unfold handleKeyDown, sendCommand.
      destruct ((ctrlKey e || metaKey e) && Js.eqb (key e) Enter).
      + destruct (disabled p); [absent |].
        destruct (Js.truthy (Js.trim (command s))); absent.
      + destruct (Js.eqb (key e) ArrowUp); [| destruct (Js.eqb (key e) ArrowDown)].
        * destruct (Js.length (commandHistory s) >? 0); [cbv zeta | absent].
          destruct (historyIndex s + 1 <? Js.length (commandHistory s)); absent.
        * destruct (historyIndex s >? 0); [absent |].
          destruct (historyIndex s =? 0); absent.
        * absent.
    - absent.
    - unfold handleSubmit, sendCommand. destruct (disabled p); [absent |].
      destruct (Js.truthy (Js.trim (command s))); absent.
    - unfold arrowButton.
      destruct (onSendArrowKey p); [destruct (disabled p) |]; simpl;
        try tauto.
      intros [H | []]. injection H as ->. repeat split.
    - unfold handleSubmit, sendCommand. destruct (disabled p); [absent |].
      simpl. destruct (Js.truthy (Js.trim (command s))); absent. }
  assert (Bwd : i = ClickArrow d /\ disabled p = false /\ onSendArrowKey p = true ->
                handle p s i = [ OnSendArrowKey d ]).
  { intros [-> [D A]]. simpl. unfold arrowButton. rewrite A, D. reflexivity. }
  split; [split; [exact Fwd |] |].
  - intros C. rewrite (Bwd C). now left.
  - intros Hin. pose proof (Bwd (Fwd Hin)) as E. split; [exact E |].
    unfold step. rewrite E. destruct s; reflexivity.
Qed.

Lemma arrow_callback_only_from_buttons_witness :
  In (OnSendArrowKey Right) (handle enabledProps typed_a (ClickArrow Right)) /\
  step enabledProps typed_a (ClickArrow Right) = Some typed_a /\
  ~ In (OnSendArrowKey Up) (handle enabledProps after_a pressUp).
Proof.
  destruct (arrow_callback_only_from_buttons enabledProps typed_a
              (ClickArrow Right) Right) as [[_ Bwd] Only].
  assert (Hin : In (OnSendArrowKey Right)
                   (handle enabledProps typed_a (ClickArrow Right))).
  { apply Bwd. repeat split. }
  split; [exact Hin |]. split; [exact (proj2 (Only Hin)) |].
  intros Bad.
  destruct (proj1 (proj1 (arrow_callback_only_from_buttons enabledProps after_a
                            pressUp Up)) Bad) as [E _].
  discriminate E.
Defined.

(** One interaction makes at most one call that leaves the component: a
    callback or a focus request. *)
Theorem at_most_one_outward_call (p : CommandInputProps) (s : State)
                                 (i : Interaction) :
  (List.length (filter outward (interaction_trace p s i)) <= 1)%nat.
Proof.
  unfold interaction_trace. simpl useEffect. rewrite eqb_reflx, app_nil_r.
  assert (Send : (List.length (filter outward (PreventDefault :: sendCommand p s))
                  <= 1)%nat).
  { unfold sendCommand. destruct (disabled p); [simpl; lia |].
    destruct (Js.truthy (Js.trim (command s))); simpl; lia. }
  destruct i as [e | v | | d |]; simpl handle.
  - unfold handleKeyDown.
    destruct ((ctrlKey e || metaKey e) && Js.eqb (key e) Enter); [exact Send |].
    destruct (Js.eqb (key e) ArrowUp); [| destruct (Js.eqb (key e) ArrowDown)].
    + destruct (Js.length (commandHistory s) >? 0); [cbv zeta | simpl; lia].
      destruct (historyIndex s + 1 <? Js.length (commandHistory s)); simpl; lia.
    + destruct (historyIndex s >? 0); [simpl; lia |].
      destruct (historyIndex s =? 0); simpl; lia.
    + simpl; lia.
  - simpl; lia.
  - exact Send.
  - unfold arrowButton.
    destruct (onSendArrowKey p); [destruct (disabled p) |]; simpl; lia.
  - destruct (disabled p); [simpl; lia | exact Send].
Qed.

(** *** Suppressing the default action of a key *)

(** The key handler calls [preventDefault] exactly on ArrowUp, on ArrowDown
    and on Enter with Ctrl or Meta, once and before anything else; on the
    arrows it does so in every state, also when there is nothing to navigate
    to (empty History, oldest entry, live editing), and whatever the modifiers
    and the [disabled] flag.  On any other key the handler does nothing at
    all. *)
Theorem keydown_default_suppressed (p : CommandInputProps) (s : State)
                                   (e : KeyboardEvent) :
  (key e = ArrowUp \/ key e = ArrowDown \/
   (ctrlKey e || metaKey e = true /\ key e = Enter) ->
   exists rest,
     handleKeyDown p s e = PreventDefault :: rest /\ ~ In PreventDefault rest) /\
  (key e <> ArrowUp -> key e <> ArrowDown ->
   ~ (ctrlKey e || metaKey e = true /\ key e = Enter) ->
   handleKeyDown p s e = []).
Proof.
  split.
  - intros [K | [K | [M K]]].
    + rewrite (handleKeyDown_up p s e K). eexists. split; [reflexivity |].
      destruct (Js.length (commandHistory s) >? 0); [| absent].
      destruct (historyIndex s + 1 <? Js.length (commandHistory s)); absent.
    + rewrite (handleKeyDown_down p s e K). eexists. split; [reflexivity |].
      destruct (historyIndex s >? 0); [absent |].
      destruct (historyIndex s =? 0); absent.
    + unfold handleKeyDown. rewrite M, K. change (Js.eqb Enter Enter) with true.
      simpl andb. cbv iota. eexists. split; [reflexivity |].
      unfold sendCommand. destruct (disabled p); [absent |].
      destruct (Js.truthy (Js.trim (command s))); absent.
  - intros NU ND NC. unfold handleKeyDown.
    destruct ((ctrlKey e || metaKey e) && Js.eqb (key e) Enter) eqn:C.
    + exfalso. apply NC. apply andb_true_iff in C. destruct C as [M K].
      apply eqb_eq in K. now split.
    + destruct (Js.eqb (key e) ArrowUp) eqn:U;
        [apply eqb_eq in U; contradiction |].
      destruct (Js.eqb (key e) ArrowDown) eqn:Dn;
        [apply eqb_eq in Dn; contradiction | reflexivity].
Qed.

Lemma keydown_default_suppressed_witness :
  key (upKey false false) = ArrowUp /\
  (exists rest,
     handleKeyDown disabledProps initialState (upKey false false) =
       PreventDefault :: rest /\ ~ In PreventDefault rest) /\
  handleKeyDown enabledProps typed_a (enterKey false false) = [].
Proof.
  split; [reflexivity |].
  destruct (keydown_default_suppressed disabledProps initialState
              (upKey false false)) as [Hsup _].
  split; [exact (Hsup (or_introl eq_refl)) |].
  destruct (keydown_default_suppressed enabledProps typed_a
              (enterKey false false)) as [_ Hnone].
  apply Hnone; [discriminate | discriminate |].
  intros [M _]. discriminate M.
Defined.

(** *** The submit label *)

(** The label of the submit button announces what an enabled submission
    does: it is the "send" word exactly when the submission sends the draft,
    and "Enter" exactly when it sends the bare carriage return; after a
    submission either way the label is "Enter". *)
Theorem submit_label_tells_what_is_sent (p : CommandInputProps) (s : State)
                                        (i : Interaction) :
  disabled p = false -> submit_trigger i ->
  label_send <> Js.lit "Enter" /\
  ((submitLabel s = label_send /\ Js.trim (command s) <> [] /\
    sent (handle p s i) = [ command s ]) \/
   (submitLabel s = Js.lit "Enter" /\ Js.trim (command s) = [] /\
    sent (handle p s i) = [ CR ])) /\
  (forall s', step p s i = Some s' -> submitLabel s' = Js.lit "Enter").
Proof.
  intros D T. split; [discriminate |].
  unfold submitLabel.
  destruct (Js.trim (command s)) as [| x t] eqn:B.
  - destruct (submit_blank p s D i T B) as [Hsent Hs].
    split.
    + right. split; [reflexivity |]. split; [reflexivity | exact Hsent].
    + intros s' E. rewrite Hs in E. injection E as <-. now rewrite B.
  - assert (NB : Js.trim (command s) <> []) by (rewrite B; discriminate).
    destruct (submit_draft p s D i T NB) as [Hsent Hs].
    split.
    + left. split; [reflexivity |]. split; [discriminate | exact Hsent].
    + intros s' E. rewrite Hs in E. injection E as <-. reflexivity.
Qed.

Lemma submit_label_tells_what_is_sent_witness :
  disabled enabledProps = false /\
  submit_trigger FormSubmit /\
  submitLabel typed_a = label_send /\
  submitLabel after_a = Js.lit "Enter" /\
  (forall s', step enabledProps typed_a FormSubmit = Some s' ->
              submitLabel s' = Js.lit "Enter").
Proof.
  split; [reflexivity |]. split; [constructor |].
  split; [reflexivity |]. split; [reflexivity |].
  exact (proj2 (proj2 (submit_label_tells_what_is_sent enabledProps typed_a
                         FormSubmit eq_refl trigger_form))).
Defined.

(** *** Auto-focus *)

Lemma renderEffects_steady (renders : list CommandInputProps) (b attached : bool) :
  Forall (fun p => disabled p = b) renders ->
  renderEffects (Some b) renders attached = [].
Proof.
  induction 1 as [| p rest Hp _ IH]; [reflexivity |].
  cbn [renderEffects useEffect]. rewrite Hp, eqb_reflx. exact IH.
Qed.

(** The focus effect asks for focus exactly when the render is enabled, the
    text field is attached, and the render before it, if any, was disabled.
    Hence over any run of enabled renders that starts at mounting or right
    after a disabled render, focus is requested once, at the first of them,
    however many renders follow; and renders that are all disabled request
    nothing. *)
Theorem focus_once_per_enabling (prev : option bool) (p : CommandInputProps)
                                (attached : bool) :
  (useEffect prev p attached = [ Focus ] <->
   disabled p = false /\ attached = true /\ prev <> Some false) /\
  (useEffect prev p attached <> [ Focus ] -> useEffect prev p attached = []) /\
  (forall rest,
     disabled p = false -> prev <> Some false ->
     Forall (fun r => disabled r = false) rest ->
     renderEffects prev (p :: rest) true = [ Focus ]) /\
  (forall rest,
     disabled p = true ->
     Forall (fun r => disabled r = true) rest ->
     renderEffects prev (p :: rest) attached = []).
Proof.
  assert (Char : forall a,
             useEffect prev p a = [ Focus ] <->
             disabled p = false /\ a = true /\ prev <> Some false).
  { intros a. unfold useEffect, focusEffect.
    destruct prev as [[|] |], (disabled p), a; simpl;
      split; try discriminate; try (intros [? [? ?]]; congruence);
      try (intros _; repeat split; congruence). }
  split; [exact (Char attached) |]. split; [| split].
  - unfold useEffect, focusEffect.
    destruct prev as [[|] |], (disabled p), attached; simpl; congruence.
  - intros rest D P All. cbn [renderEffects].
    rewrite (proj2 (Char true)) by (repeat split; assumption).
    rewrite D, (renderEffects_steady rest false true All). reflexivity.
  - intros rest D All. cbn [renderEffects].
    rewrite D, (renderEffects_steady rest true attached All), app_nil_r.
    unfold useEffect, focusEffect. rewrite D.
    destruct prev as [[|] |]; reflexivity.
Qed.

Lemma focus_once_per_enabling_witness :
  disabled enabledProps = false /\
  Some true <> Some false /\
  renderEffects (Some true) [ enabledProps; enabledProps; enabledProps ] true =
    [ Focus ] /\
  renderEffects None [ disabledProps; disabledProps ] true = [].
Proof.
  split; [reflexivity |]. split; [discriminate |].
  split.
  - apply (proj1 (proj2 (proj2 (focus_once_per_enabling (Some true)
                                  enabledProps true))));
      [reflexivity | discriminate | repeat constructor].
  - apply (proj2 (proj2 (proj2 (focus_once_per_enabling None
                                  disabledProps true))));
      [reflexivity | repeat constructor].
Defined.
